(** * draft-content-suggestions: the draft content client

    A shallow embedding of [src/draft/draft_content.go] and of the part of
    the [commons] package it calls ([ValidateEndpoint] and the [Endpoint]
    interface), with the start-up fragment of [src/main.go] that builds the
    client.

    Go values are modelled as follows.
    - [string] is a Go string, [list byte] a non-nil [[]byte]; a nil slice
      is [None] in an [option (list byte)].
    - A Go [error] interface value is an [option error]: [None] is nil.
    - A call [(T, error)] of the standard library that yields exactly one
      of the two is a sum [T + error]; [ioutil.ReadAll], which yields the
      bytes read so far together with the error, is a pair.
    - Everything that touches the network or the process-wide logger runs
      in the state monad [M] over [World]. *)

From Stdlib Require Import Strings.String Strings.Ascii Strings.Byte.
From Stdlib Require Import List Bool ZArith Lia.
Import ListNotations.
Local Open Scope string_scope.
Local Open Scope Z_scope.

Set Implicit Arguments.

(** ** Package [strings] *)

(** [strings.HasPrefix(s, prefix)]:
    [len(s) >= len(prefix) && s[0:len(prefix)] == prefix]. *)
Definition HasPrefix (s prefix : string) : bool :=
  (String.length prefix <=? String.length s)%nat
  && String.eqb (substring 0 (String.length prefix) s) prefix.

(** [strings.HasSuffix(s, suffix)]:
    [len(s) >= len(suffix) && s[len(s)-len(suffix):] == suffix]. *)
Definition HasSuffix (s suffix : string) : bool :=
  (String.length suffix <=? String.length s)%nat
  && String.eqb
       (substring (String.length s - String.length suffix)
                  (String.length suffix) s)
       suffix.

(** ** Errors *)

(** The dynamic types of the [error] values this program meets:
    [*errors.errorString] (built by [errors.New]) and [*url.Error] (what
    [http.NewRequest], [url.ParseRequestURI] and [http.Client.Do] return).
    [errors.New] allocates, so a package-level sentinel is equal to
    nothing but itself; [sentinel] stands for such a value. *)
Inductive error : Type :=
| errorString (s : string)
| url_Error (Op URL : string) (Err : error)
| sentinel (name : string).

Definition errors_New (text : string) : error := errorString text.

(** Modelled from the spec: the sentinel [ErrDraftNotMappable] is named by
    [draft_content_test.go] and by the specification, and declared in
    neither [draft_content.go] nor the [commons] file. *)
Definition ErrDraftNotMappable : error := sentinel "ErrDraftNotMappable".

Fixpoint error_eqb (a b : error) : bool :=
  match a, b with
  | errorString s, errorString t => String.eqb s t
  | url_Error o u e, url_Error o' u' e' =>
      String.eqb o o' && String.eqb u u' && error_eqb e e'
  | sentinel n, sentinel n' => String.eqb n n'
  | _, _ => false
  end.

(** [errors.Is(err, target)] for a non-nil [target]: walks the [Unwrap]
    chain ([*url.Error] unwraps to its [Err]) comparing with [==]. *)
Fixpoint errors_Is_chain (err target : error) : bool :=
  error_eqb err target
  || match err with
     | url_Error _ _ inner => errors_Is_chain inner target
     | _ => false
     end.

Definition errors_Is (err : option error) (target : error) : bool :=
  match err with
  | None => false
  | Some e => errors_Is_chain e target
  end.

(** ** Response bodies *)

(** An [io.ReadCloser] as the sequence of its [Read] results: chunks of
    bytes, closed by [io.EOF] or by a read error. *)
Inductive Reader : Type :=
| EOF
| ReadErr (e : error)
| Chunk (p : list byte) (rest : Reader).

(** [ioutil.ReadAll]: reads until EOF or an error; returns the data read
    and the error met, nil at EOF.  The slice returned is never nil. *)
Fixpoint ioutil_ReadAll (r : Reader) : list byte * option error :=
  match r with
  | EOF => ([], None)
  | ReadErr e => ([], Some e)
  | Chunk p rest =>
      let '(b, err) := ioutil_ReadAll rest in ((p ++ b)%list, err)
  end.

(** The body [r] arrives whole and its bytes are [B]. *)
Inductive delivers : Reader -> list byte -> Prop :=
| delivers_EOF : delivers EOF []
| delivers_Chunk p rest B :
    delivers rest B -> delivers (Chunk p rest) (p ++ B)%list.

(** Reading [r] breaks with [e] after [got] was read. *)
Inductive breaks : Reader -> list byte -> error -> Prop :=
| breaks_ReadErr e : breaks (ReadErr e) [] e
| breaks_Chunk p rest got e :
    breaks rest got e -> breaks (Chunk p rest) (p ++ got)%list e.

Record Response : Type := {
  StatusCode : Z;
  Body : Reader
}.

Definition StatusOK : Z := 200.
Definition StatusNotFound : Z := 404.
Definition MethodGet : string := "GET".

(** A status of the 2xx class. *)
Definition is2xx (status : Z) : Prop := 200 <= status < 300.

(** ** The logger (logrus) *)

Inductive Level : Type :=
| PanicLevel | FatalLevel | ErrorLevel | WarnLevel | InfoLevel | DebugLevel.

Inductive Field : Type :=
| FieldError (e : error)
| FieldInt (n : Z)
| FieldString (s : string).

Record Entry : Type := {
  EntryLevel : Level;
  Message : string;
  Data : list (string * Field)
}.

(** ** The standard library and the environment

    What the program takes from [net/http], [net/url], [context] and
    [strconv]; none of it is code of this repository.  [http_NewRequest]
    is [http.NewRequest] with a nil body, the only way it is called here;
    [strconv_Quote] is the quoting verb that the [Error] method of a
    [url.Error] prints its URL with. *)
Class GoLib : Type := {
  Context : Type;
  Client : Type;
  Request : Type;
  URL : Type;
  http_NewRequest : string -> string -> Request + error;
  WithContext : Request -> Context -> Request;
  url_ParseRequestURI : string -> URL + error;
  strconv_Quote : string -> string
}.

Section Program.

Context {go : GoLib}.

(** The [Error()] method. *)
Fixpoint Error (e : error) : string :=
  match e with
  | errorString s => s
  | url_Error op url err =>
      op ++ " " ++ strconv_Quote url ++ ": " ++ Error err
  | sentinel name => name
  end.

(** The state outside the program: how the upstreams answer a request
    sent through a client, the entries the process-wide logger has
    received (oldest first) and the response bodies closed so far. *)
Record World : Type := {
  upstream : Client -> Request -> Response + error;
  entries : list Entry;
  closed : list Reader
}.

Definition M (A : Type) : Type := World -> A * World.

Definition ret {A} (a : A) : M A := fun w => (a, w).

Definition bind {A B} (m : M A) (k : A -> M B) : M B :=
  fun w => let '(a, w') := m w in k a w'.

Notation "x <- m ;; k" := (bind m (fun x => k))
  (at level 61, m at next level, right associativity).

(** [client.Do(request)]. *)
Definition Do (client : Client) (request : Request) : M (Response + error) :=
  fun w => (upstream w client request, w).

(** [body.Close()]. *)
Definition Close (body : Reader) : M unit :=
  fun w => (tt, {| upstream := upstream w;
                   entries := entries w;
                   closed := (closed w ++ [body])%list |}).

(** [defer call] followed by the rest of the function body: [call] runs
    when the body has returned. *)
Definition defer {A} (call : M unit) (body : M A) : M A :=
  a <- body ;; _ <- call ;; ret a.

(** [log.WithError(err).Error(msg)] on the standard logger. *)
Definition log_WithError_Error (err : error) (msg : string) : M unit :=
  fun w => (tt, {| upstream := upstream w;
                   entries := (entries w ++
                     [ {| EntryLevel := ErrorLevel;
                          Message := msg;
                          Data := [("error", FieldError err)] |} ])%list;
                   closed := closed w |}).

(** ** Package [commons] *)

(** [ValidateEndpoint]: url/uri level validation, no http(s) request. *)
Definition ValidateEndpoint (endpoint : string) : option error :=
  if negb (HasPrefix endpoint "http://")
     && negb (HasPrefix endpoint "https://")
  then Some (errors_New ("Missing scheme in endpoint: " ++ endpoint))
  else
    match url_ParseRequestURI endpoint with
    | inr err =>
        (* fmt.Sprintln: operands separated by a space, newline at the end *)
        Some (errors_New ("Invalid endpoint configuration:" ++ " " ++
                          Error err ++ " " ++ " for:" ++ " " ++ endpoint ++
                          String (ascii_of_nat 10) EmptyString))
    | inl _ => None
    end.

(** The [Endpoint] interface. *)
Class Endpoint_iface (T : Type) : Type := {
  Endpoint : T -> string;
  IsValid : T -> option error;
  IsGTG : T -> Context -> M (string * option error)
}.

(** ** Package [draft] *)

(** The [ContentAPI] interface: [FetchDraftContent] and an embedded
    [commons.Endpoint]. *)
Class ContentAPI (T : Type) : Type := {
  FetchDraftContent :
    T -> Context -> string -> M (option (list byte) * option error);
  ContentAPI_Endpoint :: Endpoint_iface T
}.

Record draftContentAPI : Type := {
  endpoint : string;
  healthEndpoint : string;
  httpClient : Client
}.

Definition draftContentAPI_FetchDraftContent
    (d : draftContentAPI) (ctx : Context) (uuid : string)
  : M (option (list byte) * option error) :=
  let requestPath := endpoint d ++ uuid in
  match http_NewRequest MethodGet requestPath with
  | inr err => ret (None, Some err)
  | inl request =>
      r <- Do (httpClient d) (WithContext request ctx) ;;
      match r with
      | inr err => ret (None, Some err)
      | inl response =>
          defer (Close (Body response))
            (if StatusCode response =? StatusNotFound
             then ret (None, None)
             else
               let '(bytes, err) := ioutil_ReadAll (Body response) in
               match err with
               | Some err => ret (None, Some err)
               | None => ret (Some bytes, None)
               end)
      end
  end.

Definition draftContentAPI_Endpoint (d : draftContentAPI) : string :=
  endpoint d.

Definition draftContentAPI_IsGTG (d : draftContentAPI) (ctx : Context)
  : M (string * option error) :=
  match http_NewRequest MethodGet (healthEndpoint d) with
  | inr err => ret (EmptyString, Some err)
  | inl request =>
      r <- Do (httpClient d) (WithContext request ctx) ;;
      match r with
      | inr err => ret (EmptyString, Some err)
      | inl response =>
          defer (Close (Body response))
            (if negb (StatusCode response =? StatusOK)
             then ret (EmptyString,
                       Some (errors_New
                               "draft-content-api endpoint is unhealthy"))
             else ret ("draft-content-api is healthy", None))
      end
  end.

Definition draftContentAPI_IsValid (d : draftContentAPI) : option error :=
  ValidateEndpoint (endpoint d).

#[export] Instance draftContentAPI_is_Endpoint
  : Endpoint_iface draftContentAPI := {
  Endpoint := draftContentAPI_Endpoint;
  IsValid := draftContentAPI_IsValid;
  IsGTG := draftContentAPI_IsGTG
}.

#[export] Instance draftContentAPI_is_ContentAPI
  : ContentAPI draftContentAPI := {
  FetchDraftContent := draftContentAPI_FetchDraftContent;
  ContentAPI_Endpoint := draftContentAPI_is_Endpoint
}.

(** [NewContentAPI]: the interface value returned holds a
    [*draftContentAPI]; [(nil, err)] is [(None, Some err)]. *)
Definition NewContentAPI
    (endpoint : string) (healthEndpoint : string) (httpClient : Client)
  : option draftContentAPI * option error :=
  let endpoint :=
    if negb (HasSuffix endpoint "/") then endpoint ++ "/" else endpoint in
  let contentAPI :=
    {| endpoint := endpoint;
       healthEndpoint := healthEndpoint;
       httpClient := httpClient |} in
  let err := IsValid contentAPI in
  match err with
  | Some err => (None, Some err)
  | None => (Some contentAPI, None)
  end.

(** ** Package [main]: building the client at start-up

    [main.go], lines 114 to 119: the client is built before anything is
    served; a construction error is logged and [main] returns. *)
Definition main_contentAPI
    (draftContentEndpoint draftContentGtgEndpoint : string) (client : Client)
  : M (option draftContentAPI) :=
  let '(contentAPI, err) :=
    NewContentAPI draftContentEndpoint draftContentGtgEndpoint client in
  match err with
  | Some err =>
      _ <- log_WithError_Error err "Draft Content API error, exiting ..." ;;
      ret None
  | None => ret contentAPI
  end.

End Program.

(** ** Vocabulary of the statements *)

(** The endpoint with a trailing slash appended when it is missing. *)
Definition slashed (endpoint : string) : string :=
  if HasSuffix endpoint "/" then endpoint else endpoint ++ "/".

(** The endpoint starts with one of the two schemes. *)
Definition has_scheme (endpoint : string) : bool :=
  HasPrefix endpoint "http://" || HasPrefix endpoint "https://".

(** The outcome of a call, and the log entries it added. *)
Definition result {go : GoLib} {A} (m : M A) (w : World) : A := fst (m w).

Definition logged {go : GoLib} {A} (m : M A) (w : World) : list Entry :=
  skipn (List.length (entries w)) (entries (snd (m w))).

(** The upstream answers the GET request for [url], sent through
    [client] under [ctx], with [answer]. *)
Definition answers {go : GoLib} (w : World) (client : Client) (ctx : Context)
    (url : string) (answer : Response + error) : Prop :=
  exists request,
    http_NewRequest MethodGet url = inl request
    /\ upstream w client (WithContext request ctx) = answer.

(** ** A small environment to run the model in

    A stand-in for the standard library (requests are their method and
    URL, a URL must hold no control character and a URL that starts with
    a colon has no scheme, a request URI must not hold a space) and a test server in the manner of
    [mocks.NewDraftContentTestServer]. *)
Module Sample.

Definition quote (s : string) : string :=
  String (ascii_of_nat 34) s ++ String (ascii_of_nat 34) EmptyString.

Fixpoint has_space (s : string) : bool :=
  match s with
  | EmptyString => false
  | String c rest => Ascii.eqb c " " || has_space rest
  end.

Fixpoint has_control (s : string) : bool :=
  match s with
  | EmptyString => false
  | String c rest =>
      (nat_of_ascii c <? 32)%nat || (nat_of_ascii c =? 127)%nat
      || has_control rest
  end.

Definition NewRequest (method url : string) : (string * string) + error :=
  if has_control url
  then inr (url_Error "parse" url
              (errorString "net/url: invalid control character in URL"))
  else if HasPrefix url ":"
  then inr (url_Error "parse" url (errorString "missing protocol scheme"))
  else inl (method, url).

Definition ParseRequestURI (rawurl : string) : string + error :=
  if has_space rawurl
  then inr (url_Error "parse" rawurl
              (errorString "invalid character in host name"))
  else inl rawurl.

Definition go : GoLib := {|
  Context := unit;
  Client := unit;
  Request := string * string;
  URL := string;
  http_NewRequest := NewRequest;
  WithContext := fun request _ => request;
  url_ParseRequestURI := ParseRequestURI;
  strconv_Quote := quote
|}.

Definition background : @Context go := tt.

Definition DefaultClient : @Client go := tt.

Definition bytes (s : string) : list byte := list_byte_of_string s.

Definition server (client : @Client go) (request : @Request go)
  : Response + error :=
  let url := snd (request : string * string) in
  if String.eqb url "http://h/content/found" then
    inl {| StatusCode := 200;
           Body := Chunk (bytes "draft ") (Chunk (bytes "body") EOF) |}
  else if String.eqb url "http://h/content/missing" then
    inl {| StatusCode := 404; Body := Chunk (bytes "no such draft") EOF |}
  else if String.eqb url "http://h/content/fails" then
    inl {| StatusCode := 500; Body := Chunk (bytes "boom") EOF |}
  else if String.eqb url "http://h/content/unmappable" then
    inl {| StatusCode := 422; Body := Chunk (bytes "not mappable") EOF |}
  else if String.eqb url "http://h/content/cut" then
    inl {| StatusCode := 200;
           Body := Chunk (bytes "dra") (ReadErr (errorString "unexpected EOF")) |}
  else if String.eqb url "http://h/__gtg" then
    inl {| StatusCode := 200; Body := EOF |}
  else if String.eqb url "http://h/__gtg204" then
    inl {| StatusCode := 204; Body := EOF |}
  else if String.eqb url "http://h/__gtg503" then
    inl {| StatusCode := 503; Body := EOF |}
  else inr (url_Error "Get" url (errorString "connection refused")).

Definition world : @World go :=
  @Build_World go server [] [].

Definition gtg : string := "http://h/__gtg".

Definition client (health : string) : @draftContentAPI go :=
  @Build_draftContentAPI go "http://h/content/" health DefaultClient.

End Sample.

(** * Properties *)

(** ** Strings *)

Section Strings.

Lemma length_append (s t : string) :
  String.length (s ++ t) = (String.length s + String.length t)%nat.
Proof.
  induction s as [| c s IH]; simpl; [reflexivity | now rewrite IH].
Qed.

Lemma substring_whole (s : string) :
  substring 0 (String.length s) s = s.
Proof.
  induction s as [| c s IH]; simpl; [reflexivity | now rewrite IH].
Qed.

Lemma substring_append_left (p s t : string) :
  substring 0 (String.length p) s = p ->
  (String.length p <= String.length s)%nat ->
  substring 0 (String.length p) (s ++ t) = p.
Proof.
  revert s; induction p as [| c p IH]; intros s Hsub Hlen; simpl in *.
  - now destruct (s ++ t).
  - destruct s as [| d s]; simpl in *; [lia |].
    injection Hsub as -> Hsub. f_equal. apply IH; [assumption | lia].
Qed.

Lemma substring_append_left_inv (p s t : string) :
  substring 0 (String.length p) (s ++ t) = p ->
  (String.length p <= String.length s)%nat ->
  substring 0 (String.length p) s = p.
Proof.
  revert s; induction p as [| c p IH]; intros s Hsub Hlen; simpl in *.
  - now destruct s.
  - destruct s as [| d s]; simpl in *; [lia |].
    injection Hsub as -> Hsub. f_equal. apply IH; [assumption | lia].
Qed.

(** A prefix no longer than [s] is a prefix of [s ++ t] exactly when it is
    one of [s]. *)
Lemma HasPrefix_append (s t p : string) :
  (String.length p <= String.length s)%nat ->
  HasPrefix (s ++ t) p = HasPrefix s p.
Proof.
  intros Hlen. unfold HasPrefix. rewrite length_append.
  replace (String.length p <=? String.length s + String.length t)%nat
    with true by (symmetry; apply Nat.leb_le; lia).
  replace (String.length p <=? String.length s)%nat
    with true by (symmetry; apply Nat.leb_le; lia).
  simpl.
  destruct (String.eqb_spec (substring 0 (String.length p) s) p) as [E | N].
  - apply String.eqb_eq. now apply substring_append_left.
  - apply String.eqb_neq. intros E. apply N.
    now apply substring_append_left_inv with (t := t).
Qed.

Lemma HasPrefix_too_short (s p : string) :
  (String.length s < String.length p)%nat -> HasPrefix s p = false.
Proof.
  intros Hlen. unfold HasPrefix.
  replace (String.length p <=? String.length s)%nat
    with false by (symmetry; apply Nat.leb_gt; lia).
  reflexivity.
Qed.

Lemma HasPrefix_same_length (s p : string) :
  String.length s = String.length p ->
  HasPrefix s p = true -> s = p.
Proof.
  intros Hlen H. unfold HasPrefix in H.
  apply andb_true_iff in H as [_ H]. apply String.eqb_eq in H.
  rewrite <- Hlen, substring_whole in H. exact H.
Qed.

(** The suffix test for one character looks at the last character. *)
Lemma HasSuffix_char_step (a b c : ascii) (s : string) :
  HasSuffix (String a (String b s)) (String c EmptyString)
  = HasSuffix (String b s) (String c EmptyString).
Proof.
  unfold HasSuffix. simpl String.length.
  replace (S (S (String.length s)) - 1)%nat with (S (String.length s)) by lia.
  replace (S (String.length s) - 1)%nat with (String.length s) by lia.
  reflexivity.
Qed.

Lemma HasSuffix_append_char (s : string) (c : ascii) :
  HasSuffix (s ++ String c EmptyString) (String c EmptyString) = true.
Proof.
  induction s as [| a s IH].
  - unfold HasSuffix. simpl. now rewrite Ascii.eqb_refl.
  - destruct s as [| b s].
    + unfold HasSuffix. simpl. now rewrite Ascii.eqb_refl.
    + simpl append in *. now rewrite HasSuffix_char_step.
Qed.

Lemma append_char_inj (s t : string) (c : ascii) :
  s ++ String c EmptyString = t ++ String c EmptyString -> s = t.
Proof.
  revert t; induction s as [| a s IH]; intros [| b t] H; simpl in H.
  - reflexivity.
  - injection H as _ H. destruct t; discriminate H.
  - injection H as _ H. destruct s; discriminate H.
  - injection H as -> H. f_equal. now apply IH.
Qed.

(** Appending a slash to an endpoint that lacks one neither creates nor
    destroys a prefix that ends in two slashes. *)
Lemma HasPrefix_append_slash (e q : string) :
  HasSuffix e "/" = false ->
  HasPrefix (e ++ "/") (q ++ "//") = HasPrefix e (q ++ "//").
Proof.
  intros Hno.
  destruct (Nat.le_gt_cases (String.length (q ++ "//")) (String.length e))
    as [Hle | Hgt].
  - now apply HasPrefix_append.
  - rewrite (HasPrefix_too_short _ _ Hgt).
    destruct (HasPrefix (e ++ "/") (q ++ "//")) eqn:Hp; [| reflexivity].
    exfalso.
    assert (Hlen : String.length (e ++ "/") = String.length (q ++ "//")).
    { unfold HasPrefix in Hp. apply andb_true_iff in Hp as [Hp _].
      apply Nat.leb_le in Hp.
      repeat rewrite length_append in Hp. repeat rewrite length_append in Hgt.
      repeat rewrite length_append. simpl in *. lia. }
    apply (HasPrefix_same_length _ _ Hlen) in Hp.
    assert (Hq : q ++ "//" = (q ++ "/") ++ "/").
    { clear. induction q as [| c q IH]; simpl; [reflexivity | now rewrite IH]. }
    rewrite Hq in Hp. apply append_char_inj in Hp. subst e.
    rewrite HasSuffix_append_char in Hno. discriminate Hno.
Qed.

Lemma has_scheme_slashed (e : string) :
  has_scheme (slashed e) = has_scheme e.
Proof.
  unfold slashed. destruct (HasSuffix e "/") eqn:Hs; [reflexivity |].
  unfold has_scheme.
  change "http://" with ("http:" ++ "//").
  change "https://" with ("https:" ++ "//").
  now rewrite !HasPrefix_append_slash.
Qed.

Lemma HasSuffix_slashed (e : string) : HasSuffix (slashed e) "/" = true.
Proof.
  unfold slashed. destruct (HasSuffix e "/") eqn:Hs; [exact Hs |].
  apply HasSuffix_append_char.
Qed.

Lemma slashed_idempotent (e : string) : slashed (slashed e) = slashed e.
Proof.
  unfold slashed at 1. now rewrite HasSuffix_slashed.
Qed.

End Strings.

(** ** The client *)

Section Client.

Context {go : GoLib}.

Lemma ReadAll_delivers (r : Reader) (B : list byte) :
  delivers r B -> ioutil_ReadAll r = (B, None).
Proof.
  induction 1 as [| p rest B _ IH]; simpl; [reflexivity | now rewrite IH].
Qed.

Lemma ReadAll_breaks (r : Reader) (got : list byte) (e : error) :
  breaks r got e -> ioutil_ReadAll r = (got, Some e).
Proof.
  induction 1 as [| p rest got e _ IH]; simpl; [reflexivity | now rewrite IH].
Qed.

(** Every body either arrives whole or breaks. *)
Lemma Reader_delivers_or_breaks (r : Reader) :
  (exists B, delivers r B) \/ (exists got e, breaks r got e).
Proof.
  induction r as [| e | p rest [[B H] | [got [e H]]]].
  - left. exists []. constructor.
  - right. exists [], e. constructor.
  - left. exists (p ++ B)%list. now constructor.
  - right. exists (p ++ got)%list, e. now constructor.
Qed.

Lemma delivers_not_breaks (r : Reader) (B got : list byte) (e : error) :
  delivers r B -> breaks r got e -> False.
Proof.
  intros HB Hb. apply ReadAll_delivers in HB. apply ReadAll_breaks in Hb.
  congruence.
Qed.

(** What [FetchDraftContent] does once the upstream has answered with a
    response: 404 ends the call, any other status has the body read. *)
Lemma FetchDraftContent_on_response
    (d : draftContentAPI) (ctx : Context) (uuid : string) (w : World)
    (response : Response) :
  answers w (httpClient d) ctx (Endpoint d ++ uuid) (inl response) ->
  FetchDraftContent d ctx uuid w =
    ((if StatusCode response =? StatusNotFound then (None, None)
      else match ioutil_ReadAll (Body response) with
           | (_, Some err) => (None, Some err)
           | (bytes, None) => (Some bytes, None)
           end),
     {| upstream := upstream w;
        entries := entries w;
        closed := (closed w ++ [Body response])%list |}).
Proof.
  intros (request & Hreq & Hdo). cbn in *.
  unfold draftContentAPI_FetchDraftContent, draftContentAPI_Endpoint in *.
  rewrite Hreq. unfold bind, Do, defer, bind. rewrite Hdo.
  destruct (StatusCode response =? StatusNotFound); [reflexivity |].
  destruct (ioutil_ReadAll (Body response)) as [bytes [err |]]; reflexivity.
Qed.

(** What [IsGTG] does once the health endpoint has answered. *)
Lemma IsGTG_on_response
    (d : draftContentAPI) (ctx : Context) (w : World) (response : Response) :
  answers w (httpClient d) ctx (healthEndpoint d) (inl response) ->
  IsGTG d ctx w =
    ((if negb (StatusCode response =? StatusOK)
      then (EmptyString,
            Some (errors_New "draft-content-api endpoint is unhealthy"))
      else ("draft-content-api is healthy", None)),
     {| upstream := upstream w;
        entries := entries w;
        closed := (closed w ++ [Body response])%list |}).
Proof.
  intros (request & Hreq & Hdo). cbn in *.
  unfold draftContentAPI_IsGTG. rewrite Hreq.
  unfold bind, Do, defer, bind. rewrite Hdo.
  destruct (StatusCode response =? StatusOK); reflexivity.
Qed.

Lemma skipn_length_nil {A} (l : list A) : skipn (List.length l) l = [].
Proof. induction l; simpl; auto. Qed.

(** Neither method of the client writes to the logger. *)
Lemma FetchDraftContent_entries
    (d : draftContentAPI) (ctx : Context) (uuid : string) (w : World) :
  entries (snd (FetchDraftContent d ctx uuid w)) = entries w.
Proof.
  cbn. unfold draftContentAPI_FetchDraftContent.
  destruct (http_NewRequest _ _) as [request | err]; [| reflexivity].
  unfold bind, Do, defer, bind.
  destruct (upstream w _ _) as [response | err]; [| reflexivity].
  destruct (StatusCode response =? StatusNotFound); [reflexivity |].
  destruct (ioutil_ReadAll (Body response)) as [bytes [err |]]; reflexivity.
Qed.

Lemma IsGTG_entries (d : draftContentAPI) (ctx : Context) (w : World) :
  entries (snd (IsGTG d ctx w)) = entries w.
Proof.
  cbn. unfold draftContentAPI_IsGTG.
  destruct (http_NewRequest _ _) as [request | err]; [| reflexivity].
  unfold bind, Do, defer, bind.
  destruct (upstream w _ _) as [response | err]; [| reflexivity].
  destruct (StatusCode response =? StatusOK); reflexivity.
Qed.

Lemma IsGTG_logs_nothing (d : draftContentAPI) (ctx : Context) (w : World) :
  logged (IsGTG d ctx) w = [].
Proof.
  unfold logged. rewrite IsGTG_entries. apply skipn_length_nil.
Qed.

(** *** Fetching draft content *)

(** C2. When the content upstream answers 404, [FetchDraftContent] returns
    nil content and a nil error, whatever the body of the response. *)
Theorem FetchDraftContent_not_found
    (d : draftContentAPI) (ctx : Context) (uuid : string) (w : World)
    (response : Response) :
  answers w (httpClient d) ctx (Endpoint d ++ uuid) (inl response) ->
  StatusCode response = StatusNotFound ->
  result (FetchDraftContent d ctx uuid) w = (None, None).
Proof.
  intros Hans Hstatus. unfold result.
  rewrite (FetchDraftContent_on_response _ _ Hans), Hstatus. reflexivity.
Qed.

(** C3. When the content upstream answers with a 2xx status and the body
    [B], [FetchDraftContent] returns exactly [B] and a nil error. *)
Theorem FetchDraftContent_success
    (d : draftContentAPI) (ctx : Context) (uuid : string) (w : World)
    (response : Response) (B : list byte) :
  answers w (httpClient d) ctx (Endpoint d ++ uuid) (inl response) ->
  is2xx (StatusCode response) ->
  delivers (Body response) B ->
  result (FetchDraftContent d ctx uuid) w = (Some B, None).
Proof.
  intros Hans H2xx HB. unfold result, is2xx in *.
  rewrite (FetchDraftContent_on_response _ _ Hans).
  rewrite (ReadAll_delivers HB). unfold StatusNotFound.
  destruct (Z.eqb_spec (StatusCode response) 404); [lia | reflexivity].
Qed.

(** C1 (what the code does). A status that is neither 2xx nor 404 is not
    told apart from success: the body is read and returned with a nil
    error. *)
Theorem FetchDraftContent_other_status_returns_body
    (d : draftContentAPI) (ctx : Context) (uuid : string) (w : World)
    (response : Response) (B : list byte) :
  answers w (httpClient d) ctx (Endpoint d ++ uuid) (inl response) ->
  ~ is2xx (StatusCode response) ->
  StatusCode response <> StatusNotFound ->
  delivers (Body response) B ->
  result (FetchDraftContent d ctx uuid) w = (Some B, None).
Proof.
  intros Hans _ H404 HB. unfold result.
  rewrite (FetchDraftContent_on_response _ _ Hans).
  rewrite (ReadAll_delivers HB).
  destruct (Z.eqb_spec (StatusCode response) StatusNotFound);
    [contradiction | reflexivity].
Qed.

(** C8 (what the code does). A 422 answer is handled like any other
    status but 404: the body comes back with a nil error, so the result
    does not satisfy [errors.Is(err, ErrDraftNotMappable)]. *)
Theorem FetchDraftContent_unprocessable_returns_body
    (d : draftContentAPI) (ctx : Context) (uuid : string) (w : World)
    (response : Response) (B : list byte) :
  answers w (httpClient d) ctx (Endpoint d ++ uuid) (inl response) ->
  StatusCode response = 422 ->
  delivers (Body response) B ->
  result (FetchDraftContent d ctx uuid) w = (Some B, None)
  /\ errors_Is (snd (result (FetchDraftContent d ctx uuid) w))
               ErrDraftNotMappable = false.
Proof.
  intros Hans H422 HB.
  assert (E : result (FetchDraftContent d ctx uuid) w = (Some B, None)).
  { unfold result. rewrite (FetchDraftContent_on_response _ _ Hans).
    rewrite (ReadAll_delivers HB), H422. reflexivity. }
  rewrite E. split; reflexivity.
Qed.

(** C7. When building the request fails, or the transport fails, the
    call returns nil content and that very error, not a wrapper of it. *)
Theorem FetchDraftContent_propagates_error
    (d : draftContentAPI) (ctx : Context) (uuid : string) (w : World)
    (err : error) :
  http_NewRequest MethodGet (Endpoint d ++ uuid) = inr err
  \/ answers w (httpClient d) ctx (Endpoint d ++ uuid) (inr err) ->
  result (FetchDraftContent d ctx uuid) w = (None, Some err).
Proof.
  unfold result. cbn.
  unfold draftContentAPI_FetchDraftContent, draftContentAPI_Endpoint.
  intros [Hreq | (request & Hreq & Hdo)]; rewrite Hreq.
  - reflexivity.
  - unfold bind, Do. rewrite Hdo. reflexivity.
Qed.

(** C10. When the status is not 404 and reading the body breaks, the call
    returns nil content, never the bytes read so far, and the read
    error. *)
Theorem FetchDraftContent_read_failure
    (d : draftContentAPI) (ctx : Context) (uuid : string) (w : World)
    (response : Response) (got : list byte) (err : error) :
  answers w (httpClient d) ctx (Endpoint d ++ uuid) (inl response) ->
  StatusCode response <> StatusNotFound ->
  breaks (Body response) got err ->
  result (FetchDraftContent d ctx uuid) w = (None, Some err).
Proof.
  intros Hans H404 Hbreak. unfold result.
  rewrite (FetchDraftContent_on_response _ _ Hans).
  rewrite (ReadAll_breaks Hbreak).
  destruct (Z.eqb_spec (StatusCode response) StatusNotFound);
    [contradiction | reflexivity].
Qed.

(** *** The GTG check *)

(** C5 (amended). When the health endpoint answers 200, [IsGTG] returns
    the fixed string that names the dependency with a nil error, and
    nothing is logged. *)
Theorem IsGTG_healthy
    (d : draftContentAPI) (ctx : Context) (w : World) (response : Response) :
  answers w (httpClient d) ctx (healthEndpoint d) (inl response) ->
  StatusCode response = StatusOK ->
  result (IsGTG d ctx) w = ("draft-content-api is healthy", None)
  /\ logged (IsGTG d ctx) w = [].
Proof.
  intros Hans Hstatus. split; [| apply IsGTG_logs_nothing].
  unfold result. rewrite (IsGTG_on_response _ Hans), Hstatus. reflexivity.
Qed.

(** C6 (what the code does). When the health endpoint answers with a
    status other than 200, [IsGTG] returns an error and logs nothing. *)
Theorem IsGTG_unhealthy_logs_nothing
    (d : draftContentAPI) (ctx : Context) (w : World) (response : Response) :
  answers w (httpClient d) ctx (healthEndpoint d) (inl response) ->
  StatusCode response <> StatusOK ->
  result (IsGTG d ctx) w =
    (EmptyString, Some (errors_New "draft-content-api endpoint is unhealthy"))
  /\ logged (IsGTG d ctx) w = [].
Proof.
  intros Hans Hstatus. split; [| apply IsGTG_logs_nothing].
  unfold result. rewrite (IsGTG_on_response _ Hans).
  destruct (Z.eqb_spec (StatusCode response) StatusOK);
    [contradiction | reflexivity].
Qed.

(** *** Construction *)

Lemma ValidateEndpoint_ok_iff (e : string) :
  ValidateEndpoint e = None
  <-> has_scheme e = true /\ exists u, url_ParseRequestURI e = inl u.
Proof.
  unfold ValidateEndpoint, has_scheme.
  destruct (HasPrefix e "http://"), (HasPrefix e "https://"); simpl;
    try (split; [discriminate | intros [H _]; discriminate H]);
    destruct (url_ParseRequestURI e) as [u | err];
    (split;
     [ intros H; first [discriminate H | split; [reflexivity | now exists u]]
     | intros [_ [u' H]]; first [reflexivity | discriminate H] ]).
Qed.

Lemma NewContentAPI_unfold (e h : string) (c : Client) :
  NewContentAPI e h c =
    match ValidateEndpoint (slashed e) with
    | Some err => (None, Some err)
    | None =>
        (Some {| endpoint := slashed e;
                 healthEndpoint := h;
                 httpClient := c |}, None)
    end.
Proof.
  unfold NewContentAPI, slashed. cbn. unfold draftContentAPI_IsValid. cbn.
  destruct (HasSuffix e "/"); reflexivity.
Qed.

Lemma NewContentAPI_accepts_iff (e h : string) (c : Client) :
  snd (NewContentAPI e h c) = None
  <-> has_scheme e = true
      /\ exists u, url_ParseRequestURI (slashed e) = inl u.
Proof.
  rewrite NewContentAPI_unfold, <- (has_scheme_slashed e).
  rewrite <- ValidateEndpoint_ok_iff.
  destruct (ValidateEndpoint (slashed e)); simpl; split; congruence.
Qed.

(** C4. [NewContentAPI] returns an error, and no client, exactly when the
    endpoint lacks the [http://] or [https://] prefix or its slash-ended
    form, the client's base URL, fails request-URI parsing.  The check is
    made by the constructor, a function of its arguments alone that never
    looks at the client, the health URL or the world: a client that is
    handed out is valid already. *)
Theorem NewContentAPI_fails_iff_invalid (e h : string) (c : Client) :
  (snd (NewContentAPI e h c) <> None
   <-> has_scheme e = false
       \/ exists err, url_ParseRequestURI (slashed e) = inr err)
  /\ (snd (NewContentAPI e h c) <> None -> fst (NewContentAPI e h c) = None)
  /\ (snd (NewContentAPI e h c) = None ->
      exists api, fst (NewContentAPI e h c) = Some api /\ IsValid api = None)
  /\ (forall h' c',
        snd (NewContentAPI e h' c') = snd (NewContentAPI e h c)).
Proof.
  repeat split.
  - intros Herr.
    destruct (has_scheme e) eqn:Hs; [right | now left].
    destruct (url_ParseRequestURI (slashed e)) as [u | err] eqn:Hp;
      [| now exists err].
    exfalso. apply Herr. apply NewContentAPI_accepts_iff.
    split; [exact Hs | now exists u].
  - intros Hbad Hok. apply NewContentAPI_accepts_iff in Hok as [Hs [u Hu]].
    destruct Hbad as [Hbad | [err Herr]]; congruence.
  - rewrite NewContentAPI_unfold.
    destruct (ValidateEndpoint (slashed e)); simpl; congruence.
  - rewrite NewContentAPI_unfold.
    destruct (ValidateEndpoint (slashed e)) eqn:Hv; simpl; [discriminate |].
    intros _. eexists. split; [reflexivity | exact Hv].
  - intros h' c'. rewrite !NewContentAPI_unfold.
    destruct (ValidateEndpoint (slashed e)); reflexivity.
Qed.

(** C9 (amended). The endpoint of a client built from [e] is [e] with a
    slash appended exactly when [e] lacks one, so it ends with a slash;
    when [e] lacks the slash, [e] followed by a slash is accepted as well
    and gives the same endpoint.  [FetchDraftContent] asks [http.NewRequest]
    for a GET of that endpoint followed by the identifier: an error of
    that call is the outcome, and otherwise the outcome hangs on the
    upstream's answer to that one request only. *)
Theorem NewContentAPI_endpoint_normalised
    (e h : string) (c : Client) (api : draftContentAPI) :
  NewContentAPI e h c = (Some api, None) ->
  HasSuffix (Endpoint api) "/" = true
  /\ Endpoint api = (if HasSuffix e "/" then e else e ++ "/")
  /\ (HasSuffix e "/" = false ->
      forall h' c', exists api',
        NewContentAPI (e ++ "/") h' c' = (Some api', None)
        /\ Endpoint api' = Endpoint api)
  /\ (forall ctx uuid w,
        match http_NewRequest MethodGet (Endpoint api ++ uuid) with
        | inr err => result (FetchDraftContent api ctx uuid) w = (None, Some err)
        | inl request =>
            forall w',
              upstream w' (httpClient api) (WithContext request ctx)
              = upstream w (httpClient api) (WithContext request ctx) ->
              result (FetchDraftContent api ctx uuid) w'
              = result (FetchDraftContent api ctx uuid) w
        end).
Proof.
  intros Hnew. rewrite NewContentAPI_unfold in Hnew.
  destruct (ValidateEndpoint (slashed e)) eqn:Hv; [discriminate |].
  injection Hnew as <-. cbn. unfold draftContentAPI_Endpoint. cbn.
  split; [apply HasSuffix_slashed |].
  split; [reflexivity |].
  split.
  - intros Hno h' c'. rewrite NewContentAPI_unfold.
    assert (E : slashed (e ++ "/") = slashed e).
    { rewrite <- (slashed_idempotent e). unfold slashed at 3.
      now rewrite Hno. }
    rewrite E, Hv. eexists. split; reflexivity.
  - intros ctx uuid w. unfold result. cbn.
    unfold draftContentAPI_FetchDraftContent. cbn.
    destruct (http_NewRequest MethodGet (slashed e ++ uuid))
      as [request | err]; [| reflexivity].
    intros w' Hsame. unfold bind, Do, defer, bind. rewrite Hsame.
    destruct (upstream w c (WithContext request ctx)) as [response | err];
      [| reflexivity].
    destruct (StatusCode response =? StatusNotFound); [reflexivity |].
    destruct (ioutil_ReadAll (Body response)) as [bytes [err |]]; reflexivity.
Qed.

(** *** Start-up *)

(** X16. An endpoint the constructor rejects stops [main] before anything
    is served: one error-level entry that carries the error, and no
    client. *)
Lemma main_contentAPI_rejected
    (e h : string) (c : Client) (w : World) (err : error) :
  snd (NewContentAPI e h c) = Some err ->
  result (main_contentAPI e h c) w = None
  /\ logged (main_contentAPI e h c) w =
       [ {| EntryLevel := ErrorLevel;
            Message := "Draft Content API error, exiting ...";
            Data := [("error", FieldError err)] |} ].
Proof.
  intros Herr. unfold result, logged, main_contentAPI.
  destruct (NewContentAPI e h c) as [api oerr]. simpl in Herr. subst oerr.
  cbn. split; [reflexivity |].
  rewrite skipn_app, skipn_length_nil, Nat.sub_diag. reflexivity.
Qed.

End Client.

(** ** The model at work *)

Section Runs.

Import Sample.

Local Existing Instance go.

Example NewContentAPI_accepts :
  NewContentAPI (go := go) "http://h/content" gtg DefaultClient
  = (Some (client gtg), None).
Proof. reflexivity. Qed.

Example NewContentAPI_rejects_missing_scheme :
  NewContentAPI (go := go) "h/content" gtg DefaultClient
  = (None, Some (errorString "Missing scheme in endpoint: h/content/")).
Proof. reflexivity. Qed.

Example NewContentAPI_rejects_bad_uri :
  exists err,
    NewContentAPI (go := go) "http://h /content" gtg DefaultClient
    = (None, Some err).
Proof. eexists. reflexivity. Qed.

Lemma FetchDraftContent_not_found_witness :
  result (FetchDraftContent (client gtg) background "missing") world
  = (None, None).
Proof.
  apply (@FetchDraftContent_not_found go (client gtg) background "missing"
           world {| StatusCode := 404;
                    Body := Chunk (bytes "no such draft") EOF |}).
  - eexists. split; reflexivity.
  - reflexivity.
Defined.

Lemma FetchDraftContent_success_witness :
  result (FetchDraftContent (client gtg) background "found") world
  = (Some (bytes "draft body"), None).
Proof.
  apply (@FetchDraftContent_success go (client gtg) background "found"
           world {| StatusCode := 200;
                    Body := Chunk (bytes "draft ")
                              (Chunk (bytes "body") EOF) |}
           (bytes "draft body")).
  - eexists. split; reflexivity.
  - unfold is2xx. simpl. lia.
  - apply (delivers_Chunk (bytes "draft ")
             (delivers_Chunk (bytes "body") delivers_EOF)).
Defined.

Lemma FetchDraftContent_other_status_returns_body_witness :
  result (FetchDraftContent (client gtg) background "fails") world
  = (Some (bytes "boom"), None).
Proof.
  apply (@FetchDraftContent_other_status_returns_body go (client gtg)
           background "fails" world
           {| StatusCode := 500; Body := Chunk (bytes "boom") EOF |}
           (bytes "boom")).
  - eexists. split; reflexivity.
  - unfold is2xx. simpl. lia.
  - discriminate.
  - apply (delivers_Chunk (bytes "boom") delivers_EOF).
Defined.

Lemma FetchDraftContent_unprocessable_returns_body_witness :
  result (FetchDraftContent (client gtg) background "unmappable") world
  = (Some (bytes "not mappable"), None)
  /\ errors_Is
       (snd (result (FetchDraftContent (client gtg) background "unmappable")
               world))
       ErrDraftNotMappable = false.
Proof.
  apply (@FetchDraftContent_unprocessable_returns_body go (client gtg)
           background "unmappable" world
           {| StatusCode := 422; Body := Chunk (bytes "not mappable") EOF |}
           (bytes "not mappable")).
  - eexists. split; reflexivity.
  - reflexivity.
  - apply (delivers_Chunk (bytes "not mappable") delivers_EOF).
Defined.

Lemma FetchDraftContent_propagates_error_witness :
  result (FetchDraftContent (client gtg) background
            (String (ascii_of_nat 10) EmptyString)) world
  = (None,
     Some (url_Error "parse"
             ("http://h/content/" ++ String (ascii_of_nat 10) EmptyString)
             (errorString "net/url: invalid control character in URL")))
  /\ result (FetchDraftContent (client gtg) background "nowhere") world
     = (None,
        Some (url_Error "Get" "http://h/content/nowhere"
                (errorString "connection refused"))).
Proof.
  split.
  - apply (@FetchDraftContent_propagates_error go (client gtg) background
             (String (ascii_of_nat 10) EmptyString) world).
    left. reflexivity.
  - apply (@FetchDraftContent_propagates_error go (client gtg) background
             "nowhere" world).
    right. eexists. split; reflexivity.
Defined.

Lemma FetchDraftContent_read_failure_witness :
  result (FetchDraftContent (client gtg) background "cut") world
  = (None, Some (errorString "unexpected EOF")).
Proof.
  apply (@FetchDraftContent_read_failure go (client gtg) background "cut"
           world
           {| StatusCode := 200;
              Body := Chunk (bytes "dra")
                        (ReadErr (errorString "unexpected EOF")) |}
           (bytes "dra" ++ [])%list).
  - eexists. split; reflexivity.
  - discriminate.
  - apply (breaks_Chunk (bytes "dra")
             (breaks_ReadErr (errorString "unexpected EOF"))).
Defined.

Lemma IsGTG_healthy_witness :
  result (IsGTG (client gtg) background) world
  = ("draft-content-api is healthy", None)
  /\ logged (IsGTG (client gtg) background) world = [].
Proof.
  apply (@IsGTG_healthy go (client gtg) background world
           {| StatusCode := 200; Body := EOF |}).
  - eexists. split; reflexivity.
  - reflexivity.
Defined.

Lemma IsGTG_unhealthy_logs_nothing_witness :
  result (IsGTG (client "http://h/__gtg503") background) world
  = (EmptyString, Some (errorString "draft-content-api endpoint is unhealthy"))
  /\ logged (IsGTG (client "http://h/__gtg503") background) world = [].
Proof.
  apply (@IsGTG_unhealthy_logs_nothing go (client "http://h/__gtg503")
           background world {| StatusCode := 503; Body := EOF |}).
  - eexists. split; reflexivity.
  - discriminate.
Defined.

Lemma NewContentAPI_endpoint_normalised_witness :
  HasSuffix (Endpoint (client gtg)) "/" = true
  /\ Endpoint (client gtg) = "http://h/content/"
  /\ (forall h' c', exists api',
        NewContentAPI (go := go) ("http://h/content" ++ "/") h' c'
        = (Some api', None)
        /\ Endpoint api' = Endpoint (client gtg)).
Proof.
  destruct (@NewContentAPI_endpoint_normalised go "http://h/content" gtg
              DefaultClient (client gtg) eq_refl)
    as (Hslash & Hend & Hsame & _).
  split; [exact Hslash |]. split; [exact Hend |].
  exact (Hsame eq_refl).
Defined.

(** C5, as stated, fails: 204 is a 2xx status and the check reports the
    dependency unhealthy. *)
Lemma IsGTG_2xx_counterexample :
  exists response,
    answers world (httpClient (client "http://h/__gtg204")) background
            (healthEndpoint (client "http://h/__gtg204")) (inl response)
    /\ is2xx (StatusCode response)
    /\ result (IsGTG (client "http://h/__gtg204") background) world
       = (EmptyString,
          Some (errorString "draft-content-api endpoint is unhealthy")).
Proof.
  exists {| StatusCode := 204; Body := EOF |}.
  split; [eexists; split; reflexivity |].
  split; [unfold is2xx; simpl; lia | reflexivity].
Qed.

(** C9, as stated, fails for an endpoint that ends with a slash already:
    both it and its extension by one more slash are accepted, and the two
    clients have different endpoints. *)
Lemma NewContentAPI_trailing_slash_counterexample :
  exists api api',
    NewContentAPI (go := go) "http://h/" gtg DefaultClient = (Some api, None)
    /\ NewContentAPI (go := go) ("http://h/" ++ "/") gtg DefaultClient
       = (Some api', None)
    /\ Endpoint api = "http://h/"
    /\ Endpoint api' = "http://h//"
    /\ Endpoint api <> Endpoint api'.
Proof.
  do 2 eexists. repeat split; try reflexivity. discriminate.
Qed.

End Runs.

(** ** Further properties of the client *)

Section Outcomes.

Context {go : GoLib}.

Lemma ReadAll_whole_delivers (r : Reader) (B : list byte) :
  ioutil_ReadAll r = (B, None) -> delivers r B.
Proof.
  revert B; induction r as [| e | p rest IH]; intros B H; simpl in H.
  - injection H as <-. constructor.
  - discriminate H.
  - destruct (ioutil_ReadAll rest) as [b o]. injection H as <- ->.
    constructor. now apply IH.
Qed.

Lemma ReadAll_error_breaks (r : Reader) (got : list byte) (e : error) :
  ioutil_ReadAll r = (got, Some e) -> breaks r got e.
Proof.
  revert got; induction r as [| e' | p rest IH]; intros got H; simpl in H.
  - discriminate H.
  - injection H as <- <-. constructor.
  - destruct (ioutil_ReadAll rest) as [b o]. injection H as <- ->.
    constructor. now apply IH.
Qed.

(** The run of [FetchDraftContent], case by case. *)
Lemma FetchDraftContent_run
    (d : draftContentAPI) (ctx : Context) (uuid : string) (w : World) :
  FetchDraftContent d ctx uuid w =
    match http_NewRequest MethodGet (Endpoint d ++ uuid) with
    | inr err => ((None, Some err), w)
    | inl request =>
        match upstream w (httpClient d) (WithContext request ctx) with
        | inr err => ((None, Some err), w)
        | inl response =>
            ((if StatusCode response =? StatusNotFound then (None, None)
              else match ioutil_ReadAll (Body response) with
                   | (_, Some err) => (None, Some err)
                   | (bytes, None) => (Some bytes, None)
                   end),
             {| upstream := upstream w;
                entries := entries w;
                closed := (closed w ++ [Body response])%list |})
        end
    end.
Proof.
  cbn. unfold draftContentAPI_FetchDraftContent, draftContentAPI_Endpoint.
  destruct (http_NewRequest _ _) as [request | err]; [| reflexivity].
  unfold bind, Do, defer, bind.
  destruct (upstream w _ _) as [response | err]; [| reflexivity].
  destruct (StatusCode response =? StatusNotFound); [reflexivity |].
  destruct (ioutil_ReadAll (Body response)) as [bytes [err |]]; reflexivity.
Qed.

(** The run of [IsGTG], case by case. *)
Lemma IsGTG_run (d : draftContentAPI) (ctx : Context) (w : World) :
  IsGTG d ctx w =
    match http_NewRequest MethodGet (healthEndpoint d) with
    | inr err => ((EmptyString, Some err), w)
    | inl request =>
        match upstream w (httpClient d) (WithContext request ctx) with
        | inr err => ((EmptyString, Some err), w)
        | inl response =>
            ((if negb (StatusCode response =? StatusOK)
              then (EmptyString,
                    Some (errors_New "draft-content-api endpoint is unhealthy"))
              else ("draft-content-api is healthy", None)),
             {| upstream := upstream w;
                entries := entries w;
                closed := (closed w ++ [Body response])%list |})
        end
    end.
Proof.
  cbn. unfold draftContentAPI_IsGTG.
  destruct (http_NewRequest _ _) as [request | err]; [| reflexivity].
  unfold bind, Do, defer, bind.
  destruct (upstream w _ _) as [response | err]; [| reflexivity].
  destruct (StatusCode response =? StatusOK); reflexivity.
Qed.

(** Case analysis on a run: the request, the answer, the status. *)
Ltac run_cases request response err Hreq Hdo :=
  destruct (http_NewRequest _ _) as [request | err] eqn:Hreq;
  [ destruct (upstream _ _ _) as [response | err] eqn:Hdo | ].

(** *** The GTG check *)

(** X1. When the health request cannot be built, or the transport fails,
    [IsGTG] returns the empty message and that very error; nothing is
    logged and no body is closed. *)
Theorem IsGTG_propagates_error
    (d : draftContentAPI) (ctx : Context) (w : World) (err : error) :
  http_NewRequest MethodGet (healthEndpoint d) = inr err
  \/ answers w (httpClient d) ctx (healthEndpoint d) (inr err) ->
  IsGTG d ctx w = ((EmptyString, Some err), w).
Proof.
  intros H. rewrite IsGTG_run.
  destruct H as [Hreq | (request & Hreq & Hdo)]; rewrite Hreq;
    [| rewrite Hdo]; reflexivity.
Qed.

(** X2. [IsGTG] returns a nil error exactly when the health endpoint
    answered the request with status 200. *)
Theorem IsGTG_ok_iff_200
    (d : draftContentAPI) (ctx : Context) (w : World) :
  snd (result (IsGTG d ctx) w) = None
  <-> exists response,
        answers w (httpClient d) ctx (healthEndpoint d) (inl response)
        /\ StatusCode response = StatusOK.
Proof.
  unfold result, answers. rewrite IsGTG_run. split.
  - run_cases request response err Hreq Hdo; cbn; try discriminate.
    destruct (Z.eqb_spec (StatusCode response) StatusOK) as [E | N]; cbn;
      [| discriminate].
    intros _. exists response. split; [now exists request | exact E].
  - intros (response & (request & Hreq & Hdo) & E).
    rewrite Hreq, Hdo, E. reflexivity.
Qed.

(** X3. [IsGTG] returns either the success message with a nil error or
    the empty message with an error, never a message beside an error. *)
Theorem IsGTG_message_or_error
    (d : draftContentAPI) (ctx : Context) (w : World) :
  result (IsGTG d ctx) w = ("draft-content-api is healthy", None)
  \/ exists err, result (IsGTG d ctx) w = (EmptyString, Some err).
Proof.
  unfold result. rewrite IsGTG_run.
  run_cases request response err Hreq Hdo; cbn;
    try (right; eexists; reflexivity).
  destruct (StatusCode response =? StatusOK); cbn;
    [left; reflexivity | right; eexists; reflexivity].
Qed.

(** X4. Whenever the health endpoint answers, whatever the status, [IsGTG]
    closes the body of the response, once, and closes nothing else. *)
Theorem IsGTG_closes_body_once
    (d : draftContentAPI) (ctx : Context) (w : World) (response : Response) :
  answers w (httpClient d) ctx (healthEndpoint d) (inl response) ->
  closed (snd (IsGTG d ctx w)) = (closed w ++ [Body response])%list.
Proof.
  intros (request & Hreq & Hdo). rewrite IsGTG_run, Hreq, Hdo. reflexivity.
Qed.

(** *** Fetching draft content *)

(** X5. [FetchDraftContent] returns nil content with a nil error exactly
    when the upstream answered 404; an empty body under another status is
    empty content, not nil. *)
Theorem FetchDraftContent_not_found_iff
    (d : draftContentAPI) (ctx : Context) (uuid : string) (w : World) :
  result (FetchDraftContent d ctx uuid) w = (None, None)
  <-> exists response,
        answers w (httpClient d) ctx (Endpoint d ++ uuid) (inl response)
        /\ StatusCode response = StatusNotFound.
Proof.
  unfold result, answers. rewrite FetchDraftContent_run. split.
  - run_cases request response err Hreq Hdo; cbn; try discriminate.
    destruct (Z.eqb_spec (StatusCode response) StatusNotFound) as [E | N].
    + intros _. exists response. split; [now exists request | exact E].
    + destruct (ioutil_ReadAll (Body response)) as [bytes [err |]];
        discriminate.
  - intros (response & (request & Hreq & Hdo) & E).
    rewrite Hreq, Hdo, E. reflexivity.
Qed.

(** X6. [FetchDraftContent] returns content [B] exactly when the upstream
    answered with a status other than 404 and the body arrived whole with
    bytes [B]; the error is then nil. *)
Theorem FetchDraftContent_content_iff
    (d : draftContentAPI) (ctx : Context) (uuid : string) (w : World)
    (B : list byte) :
  (fst (result (FetchDraftContent d ctx uuid) w) = Some B
   <-> exists response,
         answers w (httpClient d) ctx (Endpoint d ++ uuid) (inl response)
         /\ StatusCode response <> StatusNotFound
         /\ delivers (Body response) B)
  /\ (fst (result (FetchDraftContent d ctx uuid) w) = Some B ->
      snd (result (FetchDraftContent d ctx uuid) w) = None).
Proof.
  unfold result, answers. rewrite FetchDraftContent_run. split; [split |].
  - run_cases request response err Hreq Hdo; cbn; try discriminate.
    destruct (Z.eqb_spec (StatusCode response) StatusNotFound) as [E | N];
      [discriminate |].
    destruct (ioutil_ReadAll (Body response)) as [bytes [err |]] eqn:Hread;
      cbn; [discriminate |].
    intros [= <-]. exists response.
    split; [now exists request |].
    split; [exact N | now apply ReadAll_whole_delivers].
  - intros (response & (request & Hreq & Hdo) & N & HB).
    rewrite Hreq, Hdo, (ReadAll_delivers HB).
    destruct (Z.eqb_spec (StatusCode response) StatusNotFound);
      [contradiction | reflexivity].
  - run_cases request response err Hreq Hdo; cbn; try discriminate.
    destruct (StatusCode response =? StatusNotFound); [discriminate |].
    destruct (ioutil_ReadAll (Body response)) as [bytes [err |]]; cbn;
      [discriminate | reflexivity].
Qed.

(** X7. The errors of [FetchDraftContent] are the error of building the
    request, the error of the transport and the error of reading the body
    of an answer that is not a 404, and no other: a status alone never
    makes an error. *)
Theorem FetchDraftContent_error_iff
    (d : draftContentAPI) (ctx : Context) (uuid : string) (w : World)
    (err : error) :
  snd (result (FetchDraftContent d ctx uuid) w) = Some err
  <-> http_NewRequest MethodGet (Endpoint d ++ uuid) = inr err
      \/ answers w (httpClient d) ctx (Endpoint d ++ uuid) (inr err)
      \/ exists response got,
           answers w (httpClient d) ctx (Endpoint d ++ uuid) (inl response)
           /\ StatusCode response <> StatusNotFound
           /\ breaks (Body response) got err.
Proof.
  unfold result, answers. rewrite FetchDraftContent_run. split.
  - run_cases request response e Hreq Hdo; cbn.
    + destruct (Z.eqb_spec (StatusCode response) StatusNotFound) as [E | N];
        [discriminate |].
      destruct (ioutil_ReadAll (Body response)) as [bytes [e |]] eqn:Hread;
        cbn; [| discriminate].
      intros [= ->]. right. right. exists response, bytes.
      split; [now exists request |].
      split; [exact N | now apply ReadAll_error_breaks].
    + intros [= ->]. right. left. now exists request.
    + intros [= ->]. now left.
  - intros [Hreq | [(request & Hreq & Hdo)
                   | (response & got & (request & Hreq & Hdo) & N & Hb)]];
      rewrite Hreq; try rewrite Hdo; try reflexivity.
    rewrite (ReadAll_breaks Hb).
    destruct (Z.eqb_spec (StatusCode response) StatusNotFound);
      [contradiction | reflexivity].
Qed.

(** X8. Whenever the upstream answers, [FetchDraftContent] closes the
    body of the response, once: after a 404 whose body it does not read,
    after a failed read and after a full read alike. *)
Theorem FetchDraftContent_closes_body_once
    (d : draftContentAPI) (ctx : Context) (uuid : string) (w : World)
    (response : Response) :
  answers w (httpClient d) ctx (Endpoint d ++ uuid) (inl response) ->
  closed (snd (FetchDraftContent d ctx uuid w))
  = (closed w ++ [Body response])%list.
Proof.
  intros (request & Hreq & Hdo).
  rewrite FetchDraftContent_run, Hreq, Hdo. reflexivity.
Qed.

(** X9. When no response is received, the request could not be built or
    the transport failed, [FetchDraftContent] leaves the world as it was:
    no body is closed and nothing is logged. *)
Theorem FetchDraftContent_failure_leaves_world
    (d : draftContentAPI) (ctx : Context) (uuid : string) (w : World)
    (err : error) :
  http_NewRequest MethodGet (Endpoint d ++ uuid) = inr err
  \/ answers w (httpClient d) ctx (Endpoint d ++ uuid) (inr err) ->
  FetchDraftContent d ctx uuid w = ((None, Some err), w).
Proof.
  intros H. rewrite FetchDraftContent_run.
  destruct H as [Hreq | (request & Hreq & Hdo)]; rewrite Hreq;
    [| rewrite Hdo]; reflexivity.
Qed.

(** X10. Neither [FetchDraftContent] nor [IsGTG] writes to the logger, on
    any path. *)
Theorem client_never_logs
    (d : draftContentAPI) (ctx : Context) (uuid : string) (w : World) :
  logged (FetchDraftContent d ctx uuid) w = []
  /\ logged (IsGTG d ctx) w = [].
Proof.
  unfold logged. rewrite FetchDraftContent_run, IsGTG_run. split.
  - run_cases request response err Hreq Hdo; cbn; apply skipn_length_nil.
  - run_cases request response err Hreq Hdo; cbn; apply skipn_length_nil.
Qed.

End Outcomes.

(** ** Further properties of construction and start-up *)

Section Construction.

Context {go : GoLib}.

(** X11. Building a client from the endpoint of a client that was built
    gives that client again: the constructor changes nothing in an
    endpoint it has put in form. *)
Theorem NewContentAPI_endpoint_round_trip
    (e h : string) (c : Client) (api : draftContentAPI) :
  NewContentAPI e h c = (Some api, None) ->
  NewContentAPI (Endpoint api) h c = (Some api, None).
Proof.
  rewrite NewContentAPI_unfold.
  destruct (ValidateEndpoint (slashed e)) eqn:Hv; [discriminate |].
  intros [= <-]. cbn. unfold draftContentAPI_Endpoint. cbn.
  now rewrite NewContentAPI_unfold, slashed_idempotent, Hv.
Qed.

(** X12. An endpoint with neither scheme prefix is rejected before it is
    parsed, whatever the parser would say, and the message quotes the
    endpoint with the slash the constructor appended, not the argument
    as it was given. *)
Theorem NewContentAPI_missing_scheme_message
    (e h : string) (c : Client) :
  has_scheme e = false ->
  NewContentAPI e h c =
    (None,
     Some (errorString ("Missing scheme in endpoint: " ++ slashed e))).
Proof.
  intros Hs. rewrite NewContentAPI_unfold.
  rewrite <- has_scheme_slashed in Hs. unfold has_scheme in Hs.
  apply orb_false_iff in Hs as [Hhttp Hhttps].
  unfold ValidateEndpoint. rewrite Hhttp, Hhttps. reflexivity.
Qed.

(** X13. An endpoint with a scheme whose slash-ended form fails
    request-URI parsing is rejected with a fresh error that holds the text
    of the parse error and the slash-ended endpoint, and ends with a
    newline; the parse error itself is not handed on. *)
Theorem NewContentAPI_invalid_uri_message
    (e h : string) (c : Client) (err : error) :
  has_scheme e = true ->
  url_ParseRequestURI (slashed e) = inr err ->
  NewContentAPI e h c =
    (None,
     Some (errorString
             ("Invalid endpoint configuration: " ++ Error err ++
              "  for: " ++ slashed e ++
              String (ascii_of_nat 10) EmptyString))).
Proof.
  intros Hs Hparse. rewrite NewContentAPI_unfold.
  rewrite <- has_scheme_slashed in Hs. unfold has_scheme in Hs.
  unfold ValidateEndpoint. rewrite Hparse.
  destruct (HasPrefix (slashed e) "http://"),
           (HasPrefix (slashed e) "https://");
    try discriminate Hs; reflexivity.
Qed.

(** X14. The health URL is stored as given and is not checked by the
    constructor: a client whose health URL [http.NewRequest] rejects is
    built all the same, and its [IsGTG] then returns that error. *)
Theorem IsGTG_health_url_checked_at_use
    (e h : string) (c : Client) (api : draftContentAPI)
    (ctx : Context) (w : World) (err : error) :
  NewContentAPI e h c = (Some api, None) ->
  http_NewRequest MethodGet h = inr err ->
  healthEndpoint api = h
  /\ IsGTG api ctx w = ((EmptyString, Some err), w).
Proof.
  rewrite NewContentAPI_unfold.
  destruct (ValidateEndpoint (slashed e)); [discriminate |].
  intros [= <-] Hreq. split; [reflexivity |].
  rewrite IsGTG_run. cbn. rewrite Hreq. reflexivity.
Qed.

(** X15. At start-up nothing is logged, and a client is handed on,
    exactly when the endpoint has a scheme and its slash-ended form
    parses as a request URI. *)
Theorem main_contentAPI_quiet_iff_valid
    (e h : string) (c : Client) (w : World) :
  (logged (main_contentAPI e h c) w = []
   <-> has_scheme e = true
       /\ exists u, url_ParseRequestURI (slashed e) = inl u)
  /\ (result (main_contentAPI e h c) w <> None
      <-> has_scheme e = true
          /\ exists u, url_ParseRequestURI (slashed e) = inl u).
Proof.
  rewrite <- (NewContentAPI_accepts_iff e h c).
  unfold logged, result, main_contentAPI. rewrite NewContentAPI_unfold.
  destruct (ValidateEndpoint (slashed e)) as [err |]; cbn.
  - rewrite skipn_app, skipn_length_nil, Nat.sub_diag. cbn.
    split; split; intros H; try discriminate H; now contradiction H.
  - rewrite skipn_length_nil. split; split; intros _; congruence.
Qed.

End Construction.

(** ** The further properties at work *)

Section MoreRuns.

Import Sample.

Local Existing Instance go.

Lemma IsGTG_propagates_error_witness :
  IsGTG (client ":#") background world
  = ((EmptyString,
      Some (url_Error "parse" ":#" (errorString "missing protocol scheme"))),
     world)
  /\ IsGTG (client "http://h/nowhere") background world
     = ((EmptyString,
         Some (url_Error "Get" "http://h/nowhere"
                 (errorString "connection refused"))),
        world).
Proof.
  split.
  - apply (@IsGTG_propagates_error go (client ":#") background world).
    left. reflexivity.
  - apply (@IsGTG_propagates_error go (client "http://h/nowhere")
             background world).
    right. eexists. split; reflexivity.
Defined.

Lemma IsGTG_closes_body_once_witness :
  closed (snd (IsGTG (client "http://h/__gtg503") background world))
  = [EOF].
Proof.
  apply (@IsGTG_closes_body_once go (client "http://h/__gtg503") background
           world {| StatusCode := 503; Body := EOF |}).
  eexists. split; reflexivity.
Defined.

Lemma FetchDraftContent_closes_body_once_witness :
  closed (snd (FetchDraftContent (client gtg) background "missing" world))
  = [Chunk (bytes "no such draft") EOF].
Proof.
  apply (@FetchDraftContent_closes_body_once go (client gtg) background
           "missing" world
           {| StatusCode := 404;
              Body := Chunk (bytes "no such draft") EOF |}).
  eexists. split; reflexivity.
Defined.

Lemma FetchDraftContent_failure_leaves_world_witness :
  FetchDraftContent (client gtg) background "nowhere" world
  = ((None,
      Some (url_Error "Get" "http://h/content/nowhere"
              (errorString "connection refused"))),
     world).
Proof.
  apply (@FetchDraftContent_failure_leaves_world go (client gtg) background
           "nowhere" world).
  right. eexists. split; reflexivity.
Defined.

Lemma NewContentAPI_endpoint_round_trip_witness :
  NewContentAPI (go := go) "http://h/content/" gtg DefaultClient
  = (Some (client gtg), None).
Proof.
  apply (@NewContentAPI_endpoint_round_trip go "http://h/content" gtg
           DefaultClient (client gtg)).
  reflexivity.
Defined.

Lemma NewContentAPI_missing_scheme_message_witness :
  NewContentAPI (go := go) "ftp://h/content" gtg DefaultClient
  = (None,
     Some (errorString "Missing scheme in endpoint: ftp://h/content/")).
Proof.
  apply (@NewContentAPI_missing_scheme_message go "ftp://h/content" gtg
           DefaultClient).
  reflexivity.
Defined.

Lemma NewContentAPI_invalid_uri_message_witness :
  NewContentAPI (go := go) "http://h /content" gtg DefaultClient
  = (None,
     Some (errorString
             ("Invalid endpoint configuration: "
              ++ Error (url_Error "parse" "http://h /content/"
                          (errorString "invalid character in host name"))
              ++ "  for: " ++ "http://h /content/"
              ++ String (ascii_of_nat 10) EmptyString))).
Proof.
  apply (@NewContentAPI_invalid_uri_message go "http://h /content" gtg
           DefaultClient
           (url_Error "parse" "http://h /content/"
              (errorString "invalid character in host name"))).
  - reflexivity.
  - reflexivity.
Defined.

Lemma IsGTG_health_url_checked_at_use_witness :
  healthEndpoint (client ":#") = ":#"
  /\ IsGTG (client ":#") background world
     = ((EmptyString,
         Some (url_Error "parse" ":#"
                 (errorString "missing protocol scheme"))),
        world).
Proof.
  apply (@IsGTG_health_url_checked_at_use go "http://h/content" ":#"
           DefaultClient (client ":#") background world).
  - reflexivity.
  - reflexivity.
Defined.

Lemma main_contentAPI_rejected_witness :
  result (main_contentAPI "h/content" gtg DefaultClient) world = None
  /\ logged (main_contentAPI "h/content" gtg DefaultClient) world =
       [ {| EntryLevel := ErrorLevel;
            Message := "Draft Content API error, exiting ...";
            Data := [("error",
                      FieldError
                        (errorString
                           "Missing scheme in endpoint: h/content/"))] |} ].
Proof.
  apply (@main_contentAPI_rejected go "h/content" gtg DefaultClient world).
  reflexivity.
Defined.

End MoreRuns.
